(** * spikeextractors: the RecordingExtractor and SortingExtractor base classes

    A shallow embedding of the default methods of
    [spikeinterface/RecordingExtractor.py] and
    [build/lib/spikeinterface/SortingExtractor.py], and the properties of
    snippet extraction, epoch bookkeeping and unit properties that hold of
    them. *)

From Stdlib Require Import ZArith QArith Qcanon Sorted.
From stdpp Require Import gmap strings list fin_maps sorting.

Set Default Proof Using "Type".
Local Open Scope Z_scope.

(** ** Python values, exceptions and results *)

(** The values the embedded methods inspect with [isinstance]; [PyObject]
    stands for any other object (a class, a function), by its name.  Frame
    indices and sample values are Python integers, modelled in [Z]. *)
Inductive pyval :=
  | PyNone
  | PyBool (b : bool)
  | PyInt (z : Z)
  | PyFloat (q : Qc)
  | PyStr (s : string)
  | PyObject (name : string).

Global Instance pyval_eq_dec : EqDecision pyval.
Proof. solve_decision. Defined.

(** [isinstance(v, int)]: [bool] is a subclass of [int]. *)
Definition isinstance_int (v : pyval) : bool :=
  match v with PyInt _ | PyBool _ => true | _ => false end.

(** [isinstance(v, str)]. *)
Definition isinstance_str (v : pyval) : bool :=
  match v with PyStr _ => true | _ => false end.

(** The integer an [int] instance denotes ([True == 1], [False == 0]); it is
    what [in] and dictionary lookup compare. *)
Definition int_value (v : pyval) : Z :=
  match v with
  | PyInt z => z
  | PyBool b => if b then 1 else 0
  | _ => 0
  end.

(** The exceptions the embedded code can raise.  [InvalidRange] is the
    failure of the abstract [getTraces]; the others are Python's own,
    [TypeError] being the one of a call with the wrong number of
    arguments. *)
Inductive exn :=
  | ValueError (msg : string)
  | KeyError (key : pyval)
  | NameError (name : string)
  | TypeError
  | NotImplementedError (msg : string)
  | InvalidRange.

Inductive result (A : Type) :=
  | Ok (a : A)
  | Raise (e : exn).
Global Arguments Ok {A} a.
Global Arguments Raise {A} e.

Global Instance result_ret : MRet result := λ A a, Ok a.
Global Instance result_bind : MBind result := λ A B f m,
  match m with Ok a => f a | Raise e => Raise e end.

(** A [for] loop that appends one computed element per iteration: the first
    exception aborts the loop. *)
Definition for_each {A B} (f : A → result B) : list A → result (list B) :=
  mapM f.

(** ** SortingExtractor *)

Module SortingExtractor.

(** [getUnitIds] is abstract: a sorting extractor is given with the list
    of unit ids its implementation returns.  [_unit_properties] is the
    dictionary created empty by [__init__]. *)
Record t := mk {
  getUnitIds : list Z;
  _unit_properties : gmap Z (gmap string pyval)
}.

(** [__init__]. *)
Definition init (unit_ids : list Z) : t :=
  {| getUnitIds := unit_ids; _unit_properties := ∅ |}.

Definition set_unit_properties (self : t) (d : gmap Z (gmap string pyval)) : t :=
  {| getUnitIds := getUnitIds self; _unit_properties := d |}.

(** [addUnitProperty(self, unit_id, property_name, property_data)].  The
    assignment [self._unit_properties[unit_id][property_name] = ...]
    first subscripts the outer dictionary, which raises [KeyError] when
    the unit has no inner dictionary yet. *)
Definition addUnitProperty (self : t) (unit_id property_name property_data : pyval)
    : result unit * t :=
  if isinstance_int unit_id then
    if bool_decide (int_value unit_id ∈ getUnitIds self) then
      match property_name with
      | PyStr name =>
          match _unit_properties self !! int_value unit_id with
          | Some props =>
              (Ok (),
               set_unit_properties self
                 (<[int_value unit_id := <[name := property_data]> props]>
                    (_unit_properties self)))
          | None => (Raise (KeyError unit_id), self)
          end
      | _ => (Raise (ValueError "property_name must be a string"), self)
      end
    else (Raise (ValueError "Non-valid unit_id"), self)
  else (Raise (ValueError "unit_id must be an int"), self).

(** The body of [getUnitProperty], with the name [unit_id] it reads
    bound to a value. *)
Definition getUnitProperty_body (self : t) (unit_id property_name : pyval)
    : result pyval :=
  if isinstance_int unit_id then
    if bool_decide (int_value unit_id ∈ (map_to_list (_unit_properties self)).*1) then
      match property_name with
      | PyStr name =>
          match _unit_properties self !! int_value unit_id with
          | Some props =>
              match props !! name with
              | Some data => Ok data
              | None =>
                  Raise (ValueError "This property has not been added to this unit")
              end
          | None => Raise (KeyError unit_id)
          end
      | _ => Raise (ValueError "property_name must be a string")
      end
    else Raise (ValueError "Non-valid unit_id")
  else Raise (ValueError "unit_id must be an int").

(** The global names a method body can resolve besides its parameters:
    the two imports and the class.  No builtin is called [unit_id]
    either. *)
Definition module_globals : gmap string pyval :=
  {[ "ABC" := PyObject "ABC";
     "abstractmethod" := PyObject "abstractmethod";
     "SortingExtractor" := PyObject "SortingExtractor" ]}.

(** [getUnitProperty(self, property_name)]: the signature has no
    [unit_id] parameter, so the body looks the name up in the module's
    globals. *)
Definition getUnitProperty (self : t) (property_name : pyval) : result pyval :=
  match module_globals !! "unit_id" with
  | Some unit_id => getUnitProperty_body self unit_id property_name
  | None => Raise (NameError "unit_id")
  end.

(** A call with the documented arguments [(unit_id, property_name)]
    passes one positional argument more than the signature accepts. *)
Definition call_getUnitProperty (self : t) (args : list pyval) : result pyval :=
  match args with
  | [property_name] => getUnitProperty self property_name
  | _ => Raise TypeError
  end.

End SortingExtractor.

(** ** numpy arrays and builtins used by RecordingExtractor *)

(** A two-dimensional array: its shape and its rows. *)
Record ndarray := mk_ndarray {
  shape : nat * nat;
  rows : list (list Z)
}.

Definition nrows (a : ndarray) : nat := (shape a).1.
Definition ncols (a : ndarray) : nat := (shape a).2.

(** [np.zeros((r, c))]; a negative dimension is refused. *)
Definition np_zeros (r : nat) (c : Z) : result ndarray :=
  if c <? 0 then Raise (ValueError "negative dimensions are not allowed")
  else Ok {| shape := (r, Z.to_nat c);
             rows := replicate r (replicate (Z.to_nat c) 0) |}.

(** The bound of a slice [i:j] over an axis of length [len]: a negative
    index counts from the end, and both ends are clamped to the axis. *)
Definition slice_bound (len i : Z) : Z :=
  if i <? 0 then Z.max (i + len) 0 else Z.min i len.

(** numpy broadcasting of a 2D value to the shape [(r, c)]: an axis is kept
    when it has the wanted length and stretched when it has length one. *)
Definition broadcast_to (r c : nat) (v : ndarray) : result (list (list Z)) :=
  if bool_decide ((nrows v = r ∨ nrows v = 1%nat) ∧ (ncols v = c ∨ ncols v = 1%nat)) then
    let stretch row :=
      if bool_decide (ncols v = c) then row else replicate c (default 0 (head row)) in
    let rws :=
      if bool_decide (nrows v = r) then rows v
      else replicate r (default [] (head (rows v))) in
    Ok (stretch <$> rws)
  else Raise (ValueError "could not broadcast input array").

(** [a[:, b0:b1] = v]. *)
Definition set_columns (a : ndarray) (b0 b1 : Z) (v : ndarray) : result ndarray :=
  let len := Z.of_nat (ncols a) in
  let start := Z.to_nat (slice_bound len b0) in
  let k := Z.to_nat (slice_bound len b1 - slice_bound len b0) in
  vrows ← broadcast_to (nrows a) k v;
  mret {| shape := shape a;
          rows := zip_with (λ row vrow, take start row ++ vrow ++ drop (start + k) row)
                    (rows a) vrows |}.

(** [range(n)]. *)
Definition range (n : Z) : list Z := seqZ 0 n.

(** Python compares the tuples [(start_frame, name)] lexicographically: the
    first components decide unless they are equal. *)
Definition tuple_ltb (x y : Z * string) : bool :=
  if x.1 =? y.1 then String.ltb x.2 y.2 else x.1 <? y.1.

(** [sorted]: a stable ascending sort that only uses [<].  An element is
    inserted before the first element that is not smaller than it. *)
Fixpoint sorted_insert {A} (ltb : A → A → bool) (x : A) (l : list A) : list A :=
  match l with
  | [] => [x]
  | y :: l' => if ltb y x then y :: sorted_insert ltb x l' else x :: l
  end.

Definition sorted {A} (ltb : A → A → bool) (l : list A) : list A :=
  foldr (sorted_insert ltb) [] l.

(** An insertion-ordered dictionary with string keys: assignment to a
    present key keeps its position, assignment to a new key appends. *)
Fixpoint dict_get {V} (k : string) (d : list (string * V)) : option V :=
  match d with
  | [] => None
  | (k', v) :: d' => if decide (k = k') then Some v else dict_get k d'
  end.

Fixpoint dict_set {V} (k : string) (v : V) (d : list (string * V)) : list (string * V) :=
  match d with
  | [] => [(k, v)]
  | (k', v') :: d' =>
      if decide (k = k') then (k, v) :: d' else (k', v') :: dict_set k v d'
  end.

Definition dict_del {V} (k : string) (d : list (string * V)) : list (string * V) :=
  filter (λ kv, kv.1 ≠ k) d.

Definition dict_keys {V} (d : list (string * V)) : list string := d.*1.

(** ** RecordingExtractor *)

Module RecordingExtractor.

(** The value stored under an epoch name: the dictionary
    [{'start_frame': ..., 'end_frame': ...}]. *)
Record epoch := mk_epoch {
  start_frame : Z;
  end_frame : Z
}.

(** Modelled from the spec: the abstract methods [getNumChannels],
    [getNumFrames], [getSamplingFrequency] and [getTraces] have no body in
    the class.  A recording is given with the channel ids in
    source-defined order, the frame count, the sampling frequency and
    the sample of every channel at every frame (sections 3 and 4.1);
    [_epochs] is the dictionary created empty by [__init__]. *)
Record t := mk {
  channels : list Z;
  num_frames : Z;
  sampling_frequency : Qc;
  samples : Z → Z → Z;
  _epochs : list (string * epoch)
}.

Definition set_epochs (self : t) (d : list (string * epoch)) : t :=
  {| channels := channels self; num_frames := num_frames self;
     sampling_frequency := sampling_frequency self;
     samples := samples self; _epochs := d |}.

Definition getNumChannels (self : t) : Z := Z.of_nat (length (channels self)).
Definition getNumFrames (self : t) : Z := num_frames self.
Definition getSamplingFrequency (self : t) : Qc := sampling_frequency self.

(** Modelled from the spec: [getTraces(start_frame?, end_frame?,
    channel_ids?)] of section 4.1.  The bounds default to [0] and
    [numFrames], the channels to all channels; the result has one row per
    requested channel and one column per frame of [start_frame,
    end_frame); the call fails (InvalidRange) when [start_frame >
    end_frame], when a bound is outside [0, numFrames], or when a
    requested channel id is not present. *)
Definition getTraces (self : t) (start_frame end_frame : option Z)
    (channel_ids : option (list Z)) : result ndarray :=
  let s := default 0 start_frame in
  let e := default (getNumFrames self) end_frame in
  let chans := default (channels self) channel_ids in
  if bool_decide (s ≤ e ∧ 0 ≤ s ≤ getNumFrames self ∧ 0 ≤ e ≤ getNumFrames self
                  ∧ Forall (λ c, c ∈ channels self) chans)
  then Ok {| shape := (length chans, Z.to_nat (e - s));
             rows := (λ c, samples self c <$> seqZ s (e - s)) <$> chans |}
  else Raise InvalidRange.

(** One iteration of the loop of [getSnippets], for the start frame
    [start_frames[i] = s]: the chunk of zeros, and inside the guard the
    pairs [snippet_range] and [snippet_buffer] with their two clipping
    steps, followed by the slice assignment of the traces.  Start frames
    are ints, on which [int(...)] is the identity; the two index arrays
    are pairs over [Z], the 64-bit range of their numpy elements being
    left out. *)
Definition snippet_chunk (self : t) (snippet_len_before snippet_len_after : Z)
    (channel_ids : list Z) (s : Z) : result ndarray :=
  let num_channels := length channel_ids in
  let num_frames := getNumFrames self in
  let snippet_len := snippet_len_before + snippet_len_after in
  chunk ← np_zeros num_channels snippet_len;
  if (0 <=? s) && (s <? num_frames) then
    let snippet_range := (s - snippet_len_before, s + snippet_len_after) in
    let snippet_buffer := (0, snippet_len) in
    let '(snippet_buffer, snippet_range) :=
      if snippet_range.1 <? 0 then
        ((snippet_buffer.1 - snippet_range.1, snippet_buffer.2),
         (snippet_range.1 - snippet_range.1, snippet_range.2))
      else (snippet_buffer, snippet_range) in
    let '(snippet_buffer, snippet_range) :=
      if snippet_range.2 >=? num_frames then
        ((snippet_buffer.1, snippet_buffer.2 - (snippet_range.2 - num_frames)),
         (snippet_range.1, snippet_range.2 - (snippet_range.2 - num_frames)))
      else (snippet_buffer, snippet_range) in
    traces ← getTraces self (Some snippet_range.1) (Some snippet_range.2)
               (Some channel_ids);
    set_columns chunk snippet_buffer.1 snippet_buffer.2 traces
  else Ok chunk.

(** [getSnippets(snippet_len_before, snippet_len_after, start_frames,
    channel_ids=None)]. *)
Definition getSnippets (self : t) (snippet_len_before snippet_len_after : Z)
    (start_frames : list Z) (channel_ids : option (list Z))
    : result (list ndarray) :=
  let channel_ids :=
    match channel_ids with
    | None => range (getNumChannels self)
    | Some ids => ids
    end in
  for_each (snippet_chunk self snippet_len_before snippet_len_after channel_ids)
    start_frames.

(** [getChannelInfo(channel_id)].  The message is written over two source
    lines joined by a backslash, so it keeps the 34 spaces that indent the
    second line. *)
Definition getChannelInfo (self : t) (channel_id : pyval) : result pyval :=
  Raise (NotImplementedError
           ("The getChannelInfo function is not "
            +:+ String.concat "" (replicate 34 " ")
            +:+ "implemented for this extractor")).

(** [addEpoch(epoch_name, start_frame, end_frame)].  The frames are the
    documented ints, on which [int(...)] is the identity. *)
Definition addEpoch (self : t) (epoch_name : pyval) (start_frame end_frame : Z)
    : result unit * t :=
  match epoch_name with
  | PyStr name =>
      (Ok (),
       set_epochs self
         (dict_set name {| start_frame := start_frame; end_frame := end_frame |}
            (_epochs self)))
  | _ => (Raise (ValueError "epoch_name must be a string"), self)
  end.

(** [removeEpoch(epoch_name)]. *)
Definition removeEpoch (self : t) (epoch_name : pyval) : result unit * t :=
  match epoch_name with
  | PyStr name =>
      if bool_decide (name ∈ dict_keys (_epochs self)) then
        (Ok (), set_epochs self (dict_del name (_epochs self)))
      else (Raise (ValueError "This epoch has not been added"), self)
  | _ => (Raise (ValueError "epoch_name must be a string"), self)
  end.

(** [getEpochInfo(epoch_name)]; it reads [self._epochs] and assigns
    nothing. *)
Definition getEpochInfo (self : t) (epoch_name : pyval) : result epoch :=
  match epoch_name with
  | PyStr name =>
      if bool_decide (name ∈ dict_keys (_epochs self)) then
        match dict_get name (_epochs self) with
        | Some epoch_info => Ok epoch_info
        | None => Raise (KeyError epoch_name)
        end
      else Raise (ValueError "This epoch has not been added")
  | _ => Raise (ValueError "epoch_name must be a string")
  end.

(** [getEpochNames()]. *)
Definition getEpochNames (self : t) : result (list string) :=
  let epoch_names := dict_keys (_epochs self) in
  match epoch_names with
  | [] => Ok epoch_names
  | _ =>
      epoch_start_frames ←
        for_each (λ epoch_name,
                    epoch_info ← getEpochInfo self (PyStr epoch_name);
                    mret (start_frame epoch_info))
          epoch_names;
      mret (sorted tuple_ltb (zip epoch_start_frames epoch_names)).*2
  end.

End RecordingExtractor.

(** ** Reference definitions the properties are stated against *)

Module Reference.
Import RecordingExtractor.

(** The array of zeros of a given shape. *)
Definition zeros (r c : nat) : ndarray :=
  {| shape := (r, c); rows := replicate r (replicate c 0) |}.

(** The snippet around [s] read column by column: column [j] is frame
    [s - before + j], and holds the sample of the channel when that frame
    is in [0, numFrames) and zero otherwise. *)
Definition window (self : t) (before after s : Z) (channel_ids : list Z) : ndarray :=
  {| shape := (length channel_ids, Z.to_nat (before + after));
     rows := (λ c, (λ j, let f := s - before + j in
                         if bool_decide (0 ≤ f < getNumFrames self)
                         then samples self c f else 0)
                     <$> seqZ 0 (before + after)) <$> channel_ids |}.

(** The channel ids a call uses when it is given [channel_ids]. *)
Definition resolve_channels (self : t) (channel_ids : option (list Z)) : list Z :=
  match channel_ids with
  | None => range (getNumChannels self)
  | Some ids => ids
  end.

(** The order of two [(start_frame, name)] pairs that looks at the start
    frame only. *)
Definition start_ltb (x y : Z * string) : bool := x.1 <? y.1.

(** The epoch names in ascending order of start frame, epochs of equal
    start frame kept in insertion order. *)
Definition names_by_start_stable (self : t) : list string :=
  (sorted start_ltb ((λ kv, (start_frame kv.2, kv.1)) <$> _epochs self)).*2.

(** The order of the [(start_frame, name)] pairs: by start frame, and by
    name among equal start frames. *)
Definition key_le (x y : Z * string) : Prop :=
  x.1 < y.1 ∨ (x.1 = y.1 ∧ String.le x.2 y.2).

(** The well-formedness of an epoch stated by the data model. *)
Definition epoch_wf (e : epoch) : Prop :=
  0 ≤ start_frame e ∧ start_frame e ≤ end_frame e.

Definition epochs_wf (self : t) : Prop :=
  Forall (λ kv, epoch_wf kv.2) (_epochs self).

(** A snippet whose first 15 columns are zero and whose remaining
    columns are the columns of [traces]. *)
Definition padded_15 (snippet traces : ndarray) : Prop :=
  Forall2 (λ row trow, take 15 row = replicate 15 0 ∧ drop 15 row = trow)
    (rows snippet) (rows traces).

(** A snippet whose first 5 columns are zero and whose remaining columns
    are the columns of [traces]. *)
Definition padded_5 (snippet traces : ndarray) : Prop :=
  Forall2 (λ row trow, take 5 row = replicate 5 0 ∧ drop 5 row = trow)
    (rows snippet) (rows traces).

End Reference.

(** ** Concrete extractors *)

Module Examples.

(** A sorting extractor with the units 1 and 2, as [__init__] leaves it. *)
Definition two_units : SortingExtractor.t := SortingExtractor.init [1; 2].

(** A recording of 100 frames on the channels 0 and 1, sampled at 30 kHz;
    channel [c] holds [1000 * c + f + 1] at frame [f]. *)
Definition ramp : RecordingExtractor.t :=
  {| RecordingExtractor.channels := [0; 1];
     RecordingExtractor.num_frames := 100;
     RecordingExtractor.sampling_frequency := Qc_of_Z 30000;
     RecordingExtractor.samples := λ c f, 1000 * c + f + 1;
     RecordingExtractor._epochs := [] |}.

(** [ramp] after the given [addEpoch] calls. *)
Definition with_epochs (calls : list (string * Z * Z)) : RecordingExtractor.t :=
  foldl (λ self '(name, s, e), (RecordingExtractor.addEpoch self (PyStr name) s e).2)
    ramp calls.

End Examples.

(** ** Further methods and call sequences *)

Module EpochView.
Import RecordingExtractor.

(** [getEpoch(epoch_name)].  The class [SubRecordingExtractor] it
    instantiates lives in another module; the method is given with its
    constructor, called as [SubRecordingExtractor(parent_extractor=self,
    start_frame=..., end_frame=...)]. *)
Definition getEpoch {V} (SubRecordingExtractor : t → Z → Z → result V)
    (self : t) (epoch_name : pyval) : result V :=
  epoch_info ← getEpochInfo self epoch_name;
  let start_frame := start_frame epoch_info in
  let end_frame := end_frame epoch_info in
  SubRecordingExtractor self start_frame end_frame.

End EpochView.

Module Calls.

(** A sequence of [addUnitProperty(unit_id, property_name, property_data)]
    calls on one extractor, exceptions caught by the caller: the results
    in call order and the extractor after the last call. *)
Fixpoint addUnitProperty_calls (self : SortingExtractor.t)
    (calls : list (pyval * pyval * pyval))
    : list (result unit) * SortingExtractor.t :=
  match calls with
  | [] => ([], self)
  | (unit_id, property_name, property_data) :: calls' =>
      let r := SortingExtractor.addUnitProperty self unit_id property_name
                 property_data in
      let rs := addUnitProperty_calls r.2 calls' in
      (r.1 :: rs.1, rs.2)
  end.

(** A constructor of epoch views that records its three arguments. *)
Definition record_view (parent : RecordingExtractor.t) (start_frame end_frame : Z)
    : result (RecordingExtractor.t * Z * Z) :=
  Ok (parent, start_frame, end_frame).

End Calls.

(** * Properties *)

Lemma for_each_nil {A B} (f : A → result B) : for_each f [] = Ok [].
Proof. reflexivity. Qed.

Lemma for_each_cons {A B} (f : A → result B) x l :
  for_each f (x :: l) = y ← f x; k ← for_each f l; mret (y :: k).
Proof. reflexivity. Qed.

Lemma for_each_Ok {A B} (f : A → result B) (g : A → B) l :
  Forall (λ x, f x = Ok (g x)) l → for_each f l = Ok (g <$> l).
Proof.
  induction 1 as [|x l Hx _ IH]; [done|].
  by rewrite for_each_cons, Hx, IH.
Qed.

Lemma for_each_lookup {A B} (f : A → result B) l k i x :
  for_each f l = Ok k → l !! i = Some x → ∃ y, k !! i = Some y ∧ f x = Ok y.
Proof.
  revert k i. induction l as [|a l IH]; intros k i Hk Hi; [done|].
  rewrite for_each_cons in Hk.
  destruct (f a) as [y|] eqn:Hfa; [|done]. simpl in Hk.
  destruct (for_each f l) as [k'|] eqn:Hl; [|done].
  simpl in Hk. injection Hk as <-.
  destruct i as [|i]; simpl in *.
  - injection Hi as ->. eauto.
  - eauto.
Qed.


(** ** Unit properties *)

Section unit_properties.
Import SortingExtractor.
Implicit Types (self : SortingExtractor.t) (unit_id property_name data : pyval).

Lemma addUnitProperty_not_int self unit_id property_name data :
  isinstance_int unit_id = false →
  addUnitProperty self unit_id property_name data
  = (Raise (ValueError "unit_id must be an int"), self).
Proof. intros H. unfold addUnitProperty. by rewrite H. Qed.

Lemma addUnitProperty_unknown_unit self unit_id property_name data :
  isinstance_int unit_id = true →
  int_value unit_id ∉ getUnitIds self →
  addUnitProperty self unit_id property_name data
  = (Raise (ValueError "Non-valid unit_id"), self).
Proof.
  intros Hint Hin. unfold addUnitProperty. rewrite Hint.
  by rewrite bool_decide_eq_false_2.
Qed.

Lemma addUnitProperty_name_not_str self unit_id property_name data :
  isinstance_int unit_id = true →
  int_value unit_id ∈ getUnitIds self →
  isinstance_str property_name = false →
  addUnitProperty self unit_id property_name data
  = (Raise (ValueError "property_name must be a string"), self).
Proof.
  intros Hint Hin Hstr. unfold addUnitProperty. rewrite Hint.
  rewrite bool_decide_eq_true_2 by done.
  by destruct property_name.
Qed.

(** C8.  [addUnitProperty] raises [ValueError] (the InvalidArgument
    condition), with one of its three messages, whenever [unit_id] is not
    an int, or is an int that is not in [getUnitIds()], or
    [property_name] is not a string; the extractor, and with it
    [_unit_properties], is then unchanged. *)
Theorem addUnitProperty_invalid_argument self unit_id property_name data :
  isinstance_int unit_id = false
  ∨ (isinstance_int unit_id = true ∧ int_value unit_id ∉ getUnitIds self)
  ∨ isinstance_str property_name = false →
  ∃ msg,
    msg ∈ ["unit_id must be an int"; "Non-valid unit_id";
           "property_name must be a string"]
    ∧ addUnitProperty self unit_id property_name data
      = (Raise (ValueError msg), self).
Proof.
  intros H.
  destruct (isinstance_int unit_id) eqn:Hint.
  - destruct (decide (int_value unit_id ∈ getUnitIds self)) as [Hin|Hin].
    + destruct H as [?|[[_ ?]|Hstr]]; [done..|].
      exists "property_name must be a string". split; [set_solver-|].
      by apply addUnitProperty_name_not_str.
    + exists "Non-valid unit_id". split; [set_solver-|].
      by apply addUnitProperty_unknown_unit.
  - exists "unit_id must be an int". split; [set_solver-|].
    by apply addUnitProperty_not_int.
Qed.

(** As long as no unit has an inner dictionary, [addUnitProperty]
    cannot succeed and creates none. *)
Lemma addUnitProperty_no_inner_dict self unit_id property_name data :
  _unit_properties self = ∅ →
  (addUnitProperty self unit_id property_name data).1 ≠ Ok ()
  ∧ (addUnitProperty self unit_id property_name data).2 = self.
Proof.
  intros Hemp. unfold addUnitProperty.
  destruct (isinstance_int unit_id); [|done].
  case_bool_decide; [|done].
  destruct property_name; try done.
  by rewrite Hemp, lookup_empty.
Qed.

(** On a unit that has an inner dictionary, the body of
    [getUnitProperty] with [unit_id] bound reads back what
    [addUnitProperty] stored. *)
Lemma getUnitProperty_body_after_add self (u : Z) (name : string) data props :
  u ∈ getUnitIds self →
  _unit_properties self !! u = Some props →
  ∃ self',
    addUnitProperty self (PyInt u) (PyStr name) data = (Ok (), self')
    ∧ getUnitProperty_body self' (PyInt u) (PyStr name) = Ok data.
Proof.
  intros Hin Hprops. unfold addUnitProperty. simpl.
  rewrite bool_decide_eq_true_2 by done. rewrite Hprops.
  eexists; split; [done|].
  unfold getUnitProperty_body. simpl.
  rewrite bool_decide_eq_true_2.
  - by rewrite !lookup_insert_eq.
  - apply list_elem_of_fmap. eexists (u, _). split; [done|].
    apply elem_of_map_to_list. apply lookup_insert_eq.
Qed.

(** C4.  On the extractor with units 1 and 2 left by [__init__],
    [addUnitProperty(1, "quality", 0.9)] raises [KeyError] and stores
    nothing, the documented call [getUnitProperty(1, "quality")] raises
    [TypeError], and [getUnitProperty("quality")] raises [NameError]. *)
Theorem unit_property_calls_on_fresh_extractor :
  addUnitProperty Examples.two_units (PyInt 1) (PyStr "quality")
    (PyFloat (Q2Qc (9 # 10)))
  = (Raise (KeyError (PyInt 1)), Examples.two_units)
  ∧ call_getUnitProperty Examples.two_units [PyInt 1; PyStr "quality"]
    = Raise TypeError
  ∧ getUnitProperty Examples.two_units (PyStr "quality")
    = Raise (NameError "unit_id").
Proof. done. Qed.

End unit_properties.

(** C8 at [unit_id = "x"]. *)
Lemma addUnitProperty_invalid_argument_witness :
  ∃ msg,
    msg ∈ ["unit_id must be an int"; "Non-valid unit_id";
           "property_name must be a string"]
    ∧ SortingExtractor.addUnitProperty Examples.two_units (PyStr "x")
        (PyStr "quality") PyNone
      = (Raise (ValueError msg), Examples.two_units).
Proof.
  apply (addUnitProperty_invalid_argument Examples.two_units (PyStr "x")
           (PyStr "quality") PyNone).
  left. reflexivity.
Defined.

(** ** Insertion-ordered dictionaries *)

Section dict.
Context {V : Type}.
Implicit Types (k : string) (v : V) (d : list (string * V)).

Lemma dict_get_None k d : dict_get k d = None ↔ k ∉ dict_keys d.
Proof.
  unfold dict_keys. induction d as [|[k' v'] d IH]; simpl.
  - split; [intros _; apply not_elem_of_nil|done].
  - case_decide; subst.
    + split; [done|]. intros []. apply list_elem_of_here.
    + rewrite IH, not_elem_of_cons. tauto.
Qed.

Lemma dict_get_is_Some k d : is_Some (dict_get k d) ↔ k ∈ dict_keys d.
Proof.
  rewrite <-not_eq_None_Some, dict_get_None.
  split; [apply dec_stable|auto].
Qed.

Lemma dict_get_set_eq k v d : dict_get k (dict_set k v d) = Some v.
Proof.
  induction d as [|[k' v'] d IH]; simpl.
  - by rewrite decide_True.
  - case_decide; simpl.
    + by rewrite decide_True.
    + by rewrite decide_False.
Qed.

Lemma dict_get_set_ne k k' v d :
  k ≠ k' → dict_get k' (dict_set k v d) = dict_get k' d.
Proof.
  intros Hne. induction d as [|[k'' v''] d IH]; simpl.
  - by rewrite decide_False.
  - case_decide; simpl; subst.
    + by rewrite !decide_False.
    + by rewrite IH.
Qed.

Lemma dict_keys_del k k' d :
  k' ∈ dict_keys (dict_del k d) ↔ k' ≠ k ∧ k' ∈ dict_keys d.
Proof.
  unfold dict_keys, dict_del. rewrite !list_elem_of_fmap. split.
  - intros ([k1 v1] & -> & [Hne Hin]%list_elem_of_filter). eauto.
  - intros (Hne & [k1 v1] & -> & Hin). exists (k1, v1).
    by rewrite list_elem_of_filter.
Qed.

Lemma dict_get_del_ne k k' d :
  k ≠ k' → dict_get k' (dict_del k d) = dict_get k' d.
Proof.
  intros Hne. unfold dict_del. induction d as [|[k'' v''] d IH]; [done|].
  rewrite filter_cons. simpl. case_decide as Hk; simpl.
  - by rewrite IH.
  - subst. by rewrite decide_False.
Qed.

Lemma dict_set_keys_NoDup k v d :
  NoDup (dict_keys d) → NoDup (dict_keys (dict_set k v d)).
Proof.
  unfold dict_keys.
  assert (∀ d k', k' ∈ (dict_set k v d).*1 → k' = k ∨ k' ∈ d.*1) as Hkeys.
  { clear. intros d k'. induction d as [|[k1 v1] d IH]; simpl.
    - intros ?%list_elem_of_singleton. auto.
    - case_decide; simpl; rewrite !elem_of_cons.
      + intros [?|?]; auto.
      + intros [?|[?|?]%IH]; auto. }
  induction d as [|[k1 v1] d IH]; simpl; intros Hnd.
  - apply NoDup_singleton.
  - apply NoDup_cons in Hnd as [Hk1 Hnd].
    case_decide; simpl; subst.
    + by apply NoDup_cons.
    + apply NoDup_cons. split; [|by apply IH].
      intros [->|?]%Hkeys; done.
Qed.

Lemma dict_del_keys_NoDup k d :
  NoDup (dict_keys d) → NoDup (dict_keys (dict_del k d)).
Proof.
  unfold dict_keys, dict_del. induction d as [|[k1 v1] d IH]; [done|].
  rewrite filter_cons. simpl. intros [Hk1 Hnd]%NoDup_cons.
  case_decide; simpl; [|by apply IH].
  apply NoDup_cons. split; [|by apply IH].
  intros Hin. apply Hk1. by apply (dict_keys_del k k1 d) in Hin as [_ ?].
Qed.

End dict.

(** ** The stable sort *)

Section sorted.
Context {A : Type} (ltb : A → A → bool) (R : relation A).
Context (R_of_ltb : ∀ x y, ltb x y = true → R x y).
Context (R_of_not_ltb : ∀ x y, ltb y x = false → R x y).
Context `{!Transitive R}.

Lemma sorted_insert_Permutation x l : sorted_insert ltb x l ≡ₚ x :: l.
Proof.
  induction l as [|y l IH]; simpl; [done|].
  destruct (ltb y x); [|done].
  by rewrite IH, Permutation_swap.
Qed.

Lemma sorted_Permutation l : sorted ltb l ≡ₚ l.
Proof.
  induction l as [|x l IH]; simpl; [done|].
  by rewrite sorted_insert_Permutation, IH.
Qed.

Lemma sorted_insert_StronglySorted x l :
  StronglySorted R l → StronglySorted R (sorted_insert ltb x l).
Proof using R_of_ltb R_of_not_ltb Transitive0.
  induction 1 as [|y l Hl IH Hy]; simpl.
  - repeat constructor.
  - destruct (ltb y x) eqn:Hyx.
    + constructor; [done|].
      rewrite sorted_insert_Permutation. constructor; auto.
    + constructor; [by constructor|].
      constructor; [auto|].
      eapply Forall_impl; [exact Hy|]. intros z Hz. simpl in Hz.
      transitivity y; auto.
Qed.

Lemma sorted_StronglySorted l : StronglySorted R (sorted ltb l).
Proof using R_of_ltb R_of_not_ltb Transitive0.
  induction l as [|x l IH]; simpl; [constructor|].
  by apply sorted_insert_StronglySorted.
Qed.

End sorted.

Lemma string_ltb_le (x y : string) : String.ltb x y = true → String.le x y.
Proof.
  unfold String.le, String.ltb, String.leb.
  by destruct (String.compare x y).
Qed.

Lemma string_not_ltb_le (x y : string) : String.ltb y x = false → String.le x y.
Proof.
  unfold String.le, String.ltb, String.leb.
  rewrite (String.compare_antisym y x).
  by destruct (String.compare x y).
Qed.

Lemma key_le_of_tuple_ltb x y : tuple_ltb x y = true → Reference.key_le x y.
Proof.
  unfold tuple_ltb, Reference.key_le.
  destruct (Z.eqb_spec x.1 y.1) as [Heq|Hne].
  - intros ?%string_ltb_le. by right.
  - intros ?%Z.ltb_lt. by left.
Qed.

Lemma key_le_of_not_tuple_ltb x y : tuple_ltb y x = false → Reference.key_le x y.
Proof.
  unfold tuple_ltb, Reference.key_le.
  destruct (Z.eqb_spec y.1 x.1) as [Heq|Hne].
  - intros ?%string_not_ltb_le. by right.
  - intros ?%Z.ltb_ge. left. lia.
Qed.

Global Instance key_le_trans : Transitive Reference.key_le.
Proof.
  intros x y z [Hxy|[Hxy Hxy']] [Hyz|[Hyz Hyz']]; unfold Reference.key_le.
  - left. lia.
  - left. lia.
  - left. lia.
  - right. split; [lia|]. by transitivity y.2.
Qed.

(** ** Epochs *)

Section epochs.
Import RecordingExtractor Reference.
Implicit Types (self : RecordingExtractor.t) (name : string) (epoch_name : pyval).

Local Abbreviation not_added := (ValueError "This epoch has not been added").

Lemma dict_get_elem_of {V} (d : list (string * V)) k v :
  NoDup (dict_keys d) → (k, v) ∈ d → dict_get k d = Some v.
Proof.
  unfold dict_keys. induction d as [|[k1 v1] d IH]; simpl.
  - by intros _ ?%elem_of_nil.
  - intros [Hk1 Hnd]%NoDup_cons [Heq|Hin]%elem_of_cons.
    + injection Heq as -> ->. by rewrite decide_True.
    + rewrite decide_False; [by apply IH|].
      intros ->. apply Hk1. apply list_elem_of_fmap. by exists (k1, v).
Qed.

Lemma dict_set_elem_of {V} (d : list (string * V)) k v : (k, v) ∈ dict_set k v d.
Proof.
  induction d as [|[k1 v1] d IH]; simpl.
  - apply list_elem_of_here.
  - case_decide.
    + apply list_elem_of_here.
    + by apply list_elem_of_further.
Qed.

Lemma dict_set_Forall {V} (P : string * V → Prop) (d : list (string * V)) k v :
  P (k, v) → Forall P d → Forall P (dict_set k v d).
Proof.
  intros HP. induction 1 as [|[k1 v1] d Hx Hd IH]; simpl.
  - by constructor.
  - case_decide; constructor; auto.
Qed.

(** [getEpochInfo] on a string is the lookup in [_epochs]. *)
Lemma getEpochInfo_dict_get self name :
  getEpochInfo self (PyStr name) =
  match dict_get name (_epochs self) with
  | Some epoch_info => Ok epoch_info
  | None => Raise not_added
  end.
Proof.
  unfold getEpochInfo. case_bool_decide as Hin.
  - by apply dict_get_is_Some in Hin as [epoch_info ->].
  - apply dict_get_None in Hin. by rewrite Hin.
Qed.

(** C10.  [addEpoch] and [removeEpoch] called with [epoch_name] leave
    [getEpochInfo] of every other name as it was. *)
Theorem epoch_update_frame self epoch_name (s e : Z) (other : pyval) :
  other ≠ epoch_name →
  getEpochInfo (addEpoch self epoch_name s e).2 other = getEpochInfo self other
  ∧ getEpochInfo (removeEpoch self epoch_name).2 other = getEpochInfo self other.
Proof.
  intros Hne. split.
  - destruct epoch_name as [| | | |name|]; try done.
    destruct other as [| | | |name'|]; try done.
    rewrite !getEpochInfo_dict_get. simpl.
    rewrite dict_get_set_ne; [done|congruence].
  - destruct epoch_name as [| | | |name|]; try done.
    simpl. case_bool_decide; [|done].
    destruct other as [| | | |name'|]; try done.
    rewrite !getEpochInfo_dict_get. simpl.
    rewrite dict_get_del_ne; [done|congruence].
Qed.

(** C7.  For a name that is not a key of [_epochs], [removeEpoch] and
    [getEpochInfo] raise [ValueError("This epoch has not been added")]
    (the NotFound condition) and the extractor is unchanged; after a
    successful [removeEpoch(name)], [getEpochInfo(name)] raises the same
    error; for a name that is a key, both calls return. *)
Theorem epoch_not_found self name :
  (name ∉ dict_keys (_epochs self) →
     removeEpoch self (PyStr name) = (Raise not_added, self)
     ∧ getEpochInfo self (PyStr name) = Raise not_added)
  ∧ (∀ self', removeEpoch self (PyStr name) = (Ok (), self') →
       getEpochInfo self' (PyStr name) = Raise not_added)
  ∧ (name ∈ dict_keys (_epochs self) →
       (∃ self', removeEpoch self (PyStr name) = (Ok (), self'))
       ∧ (∃ epoch_info, getEpochInfo self (PyStr name) = Ok epoch_info)).
Proof.
  split; [|split].
  - intros Hin. unfold removeEpoch, getEpochInfo.
    by rewrite bool_decide_eq_false_2.
  - intros self'. unfold removeEpoch. case_bool_decide; [|done].
    intros [= <-]. unfold getEpochInfo. simpl.
    rewrite bool_decide_eq_false_2; [done|].
    rewrite dict_keys_del. by intros [].
  - intros Hin. split.
    + unfold removeEpoch. rewrite bool_decide_eq_true_2 by done. eauto.
    + rewrite getEpochInfo_dict_get.
      apply dict_get_is_Some in Hin as [v ->]. eauto.
Qed.

(** [addEpoch] stores the two frames it is given, whatever they are. *)
Lemma getEpochInfo_after_addEpoch self name (s e : Z) :
  addEpoch self (PyStr name) s e
  = (Ok (), set_epochs self (dict_set name (mk_epoch s e) (_epochs self)))
  ∧ getEpochInfo (addEpoch self (PyStr name) s e).2 (PyStr name)
    = Ok (mk_epoch s e).
Proof.
  split; [done|].
  rewrite getEpochInfo_dict_get. simpl. by rewrite dict_get_set_eq.
Qed.

(** C6, as the code has it.  [addEpoch] checks the name only: it keeps
    the stored epochs well formed exactly when the name is not a string
    (nothing is stored) or the frames it is given satisfy
    [0 <= start_frame <= end_frame]; [removeEpoch] always keeps them well
    formed. *)
Theorem epochs_wf_preserved self epoch_name (s e : Z) :
  epochs_wf self →
  (epochs_wf (addEpoch self epoch_name s e).2
     ↔ isinstance_str epoch_name = false ∨ epoch_wf (mk_epoch s e))
  ∧ epochs_wf (removeEpoch self epoch_name).2.
Proof.
  unfold epochs_wf. intros Hwf. split.
  - destruct epoch_name as [| | | |name|]; simpl; try (split; auto; fail).
    split.
    + intros Hall. right.
      rewrite Forall_forall in Hall.
      apply (Hall (name, mk_epoch s e)), dict_set_elem_of.
    + intros [?|Hnew]; [done|]. by apply dict_set_Forall.
  - destruct epoch_name as [| | | |name|]; simpl; try done.
    case_bool_decide; [|done]. simpl.
    rewrite Forall_forall in Hwf. apply Forall_forall.
    intros kv [_ Hin]%list_elem_of_filter. by apply Hwf.
Qed.

(** The keys of [_epochs] stay distinct. *)
Lemma epochs_keys_NoDup self epoch_name (s e : Z) :
  NoDup (dict_keys (_epochs self)) →
  NoDup (dict_keys (_epochs (addEpoch self epoch_name s e).2))
  ∧ NoDup (dict_keys (_epochs (removeEpoch self epoch_name).2)).
Proof.
  intros Hnd. split.
  - destruct epoch_name; simpl; try done. by apply dict_set_keys_NoDup.
  - destruct epoch_name; simpl; try done.
    case_bool_decide; [|done]. by apply dict_del_keys_NoDup.
Qed.

End epochs.

(** ** The order of [getEpochNames] *)

Section epoch_names.
Import RecordingExtractor Reference.
Implicit Types (self : RecordingExtractor.t).

(** The [(start_frame, name)] pairs of the stored epochs, in insertion
    order. *)
Local Abbreviation pairs_of self :=
  ((λ kv : string * epoch, (start_frame kv.2, kv.1)) <$> _epochs self).

Lemma for_each_keys {V B} (f : string → result B) (g : string * V → B)
    (d : list (string * V)) :
  Forall (λ kv, f kv.1 = Ok (g kv)) d → for_each f (dict_keys d) = Ok (g <$> d).
Proof.
  unfold dict_keys. induction 1 as [|kv d Hkv _ IH]; [done|].
  rewrite !fmap_cons, for_each_cons, Hkv. simpl. by rewrite IH.
Qed.

Lemma zip_start_frames (d : list (string * epoch)) :
  zip ((λ kv, start_frame kv.2) <$> d) (dict_keys d)
  = (λ kv, (start_frame kv.2, kv.1)) <$> d.
Proof.
  unfold dict_keys. induction d as [|kv d IH]; [done|].
  rewrite !fmap_cons. simpl. by rewrite IH.
Qed.

(** The loop of [getEpochNames] never fails, and the method returns the
    names of the sorted pairs. *)
Lemma getEpochNames_sorted_pairs self :
  NoDup (dict_keys (_epochs self)) →
  getEpochNames self = Ok (sorted tuple_ltb (pairs_of self)).*2.
Proof.
  intros Hnd. unfold getEpochNames.
  destruct (dict_keys (_epochs self)) as [|k ks] eqn:Hkeys.
  { unfold dict_keys in Hkeys. apply fmap_nil_inv in Hkeys. by rewrite Hkeys. }
  rewrite <-Hkeys.
  rewrite (for_each_keys _ (λ kv, start_frame kv.2)).
  - simpl. by rewrite zip_start_frames.
  - apply Forall_forall. intros [k1 v1] Hin. cbv beta. cbn [fst snd].
    rewrite getEpochInfo_dict_get.
    rewrite (dict_get_elem_of _ k1 v1); [done| |done].
    by rewrite Hkeys.
Qed.

(** C5, as the code has it.  [getEpochNames] returns the names of all
    stored epochs in ascending order of [(start_frame, name)]: by start
    frame, and by name (not by insertion order) among epochs of equal
    start frame.  For the epochs a = [0, 10) and b = [10, 20) the result
    is ["a", "b"] in either insertion order. *)
Theorem getEpochNames_order self :
  NoDup (dict_keys (_epochs self)) →
  (∃ pairs,
     getEpochNames self = Ok pairs.*2
     ∧ pairs ≡ₚ pairs_of self
     ∧ StronglySorted key_le pairs)
  ∧ getEpochNames (Examples.with_epochs [("a", 0, 10); ("b", 10, 20)])
    = Ok ["a"; "b"]
  ∧ getEpochNames (Examples.with_epochs [("b", 10, 20); ("a", 0, 10)])
    = Ok ["a"; "b"].
Proof.
  intros Hnd. split; [|done].
  exists (sorted tuple_ltb (pairs_of self)). split; [|split].
  - by apply getEpochNames_sorted_pairs.
  - apply sorted_Permutation.
  - apply sorted_StronglySorted;
      [apply key_le_of_tuple_ltb|apply key_le_of_not_tuple_ltb|apply _].
Qed.

End epoch_names.

(** C5 with two epochs of equal start frame.  After [addEpoch("b", 0, 10)]
    and [addEpoch("a", 0, 5)] the insertion order is b, a, which a stable
    sort on the start frame keeps; [getEpochNames] returns a, b. *)
Lemma getEpochNames_ties_not_in_insertion_order :
  let self := Examples.with_epochs [("b", 0, 10); ("a", 0, 5)] in
  dict_keys (RecordingExtractor._epochs self) = ["b"; "a"]
  ∧ Reference.names_by_start_stable self = ["b"; "a"]
  ∧ RecordingExtractor.getEpochNames self = Ok ["a"; "b"]
  ∧ RecordingExtractor.getEpochNames self
    ≠ Ok (Reference.names_by_start_stable self).
Proof. done. Qed.

(** C5 at the epochs a = [0, 10), b = [10, 20). *)
Lemma getEpochNames_order_witness :
  (∃ pairs,
     RecordingExtractor.getEpochNames (Examples.with_epochs [("b", 10, 20); ("a", 0, 10)])
     = Ok pairs.*2
     ∧ pairs ≡ₚ [(10, "b"); (0, "a")]
     ∧ StronglySorted Reference.key_le pairs)
  ∧ RecordingExtractor.getEpochNames (Examples.with_epochs [("a", 0, 10); ("b", 10, 20)])
    = Ok ["a"; "b"]
  ∧ RecordingExtractor.getEpochNames (Examples.with_epochs [("b", 10, 20); ("a", 0, 10)])
    = Ok ["a"; "b"].
Proof.
  apply (getEpochNames_order (Examples.with_epochs [("b", 10, 20); ("a", 0, 10)])).
  apply (bool_decide_unpack _). vm_compute. exact I.
Defined.

(** C6 at [addEpoch("bad", -5, -10)]: the call succeeds and stores an epoch
    with a negative start frame and an end frame below it. *)
Lemma addEpoch_stores_ill_formed_epoch :
  Reference.epochs_wf Examples.ramp
  ∧ RecordingExtractor.addEpoch Examples.ramp (PyStr "bad") (-5) (-10)
    = (Ok (), Examples.with_epochs [("bad", -5, -10)])
  ∧ RecordingExtractor.getEpochInfo (Examples.with_epochs [("bad", -5, -10)])
      (PyStr "bad")
    = Ok (RecordingExtractor.mk_epoch (-5) (-10))
  ∧ ¬ Reference.epochs_wf (Examples.with_epochs [("bad", -5, -10)]).
Proof.
  split; [constructor|]. split; [done|]. split; [done|].
  intros Hwf. apply Forall_cons in Hwf as [[Hstart _] _]. simpl in Hstart. lia.
Qed.

(** C6 at [addEpoch("a", 0, 10)] on the epoch-free recording. *)
Lemma epochs_wf_preserved_witness :
  (Reference.epochs_wf (RecordingExtractor.addEpoch Examples.ramp (PyStr "a") 0 10).2
     ↔ isinstance_str (PyStr "a") = false
       ∨ Reference.epoch_wf (RecordingExtractor.mk_epoch 0 10))
  ∧ Reference.epochs_wf (RecordingExtractor.removeEpoch Examples.ramp (PyStr "a")).2.
Proof.
  apply (epochs_wf_preserved Examples.ramp (PyStr "a") 0 10).
  constructor.
Defined.

(** C7 at the name "a" on the epoch-free recording. *)
Lemma epoch_not_found_witness :
  RecordingExtractor.removeEpoch Examples.ramp (PyStr "a")
  = (Raise (ValueError "This epoch has not been added"), Examples.ramp)
  ∧ RecordingExtractor.getEpochInfo Examples.ramp (PyStr "a")
    = Raise (ValueError "This epoch has not been added").
Proof.
  apply (epoch_not_found Examples.ramp "a").
  vm_compute. apply not_elem_of_nil.
Defined.

(** C10 at the epochs a and b. *)
Lemma epoch_update_frame_witness :
  let self := Examples.with_epochs [("a", 0, 10); ("b", 10, 20)] in
  RecordingExtractor.getEpochInfo
    (RecordingExtractor.addEpoch self (PyStr "a") 3 4).2 (PyStr "b")
  = RecordingExtractor.getEpochInfo self (PyStr "b")
  ∧ RecordingExtractor.getEpochInfo
      (RecordingExtractor.removeEpoch self (PyStr "a")).2 (PyStr "b")
    = RecordingExtractor.getEpochInfo self (PyStr "b").
Proof.
  apply (epoch_update_frame (Examples.with_epochs [("a", 0, 10); ("b", 10, 20)])
           (PyStr "a") 3 4 (PyStr "b")).
  discriminate.
Defined.

(** ** Snippets *)

Section snippets.
Import RecordingExtractor Reference.
Implicit Types (self : RecordingExtractor.t) (before after s : Z).
Implicit Types (channel_ids : list Z).

(** Column [j] of the snippet around [s] on channel [c]. *)
Local Abbreviation column self before s c :=
  (λ j : Z, let f := s - before + j in
            if bool_decide (0 ≤ f < getNumFrames self)
            then samples self c f else 0).

Lemma fmap_const_replicate {A B} (f : A → B) (y : B) (l : list A) :
  Forall (λ x, f x = y) l → f <$> l = replicate (length l) y.
Proof. by induction 1; f_equal/=. Qed.

Lemma np_zeros_Ok (n : nat) (len : Z) :
  0 ≤ len → np_zeros n len = Ok (zeros n (Z.to_nat len)).
Proof.
  intros Hlen. unfold np_zeros.
  destruct (Z.ltb_spec len 0); [lia|done].
Qed.

Lemma slice_bound_inside (len i : Z) : 0 ≤ i ≤ len → slice_bound len i = i.
Proof. intros ?. unfold slice_bound. destruct (Z.ltb_spec i 0); lia. Qed.

(** Assigning an array of the shape of the slice into an array of
    zeros. *)
Lemma set_columns_zeros (n : nat) (len b0 b1 : Z) (vrows : list (list Z)) :
  0 ≤ b0 ≤ b1 → b1 ≤ len → length vrows = n →
  set_columns (zeros n (Z.to_nat len)) b0 b1
    {| shape := (n, Z.to_nat (b1 - b0)); rows := vrows |}
  = Ok {| shape := (n, Z.to_nat len);
          rows := (λ vrow,
                     take (Z.to_nat b0) (replicate (Z.to_nat len) 0) ++ vrow
                     ++ drop (Z.to_nat b0 + Z.to_nat (b1 - b0))
                          (replicate (Z.to_nat len) 0)) <$> vrows |}.
Proof.
  intros Hb0 Hb1 Hn. unfold set_columns, broadcast_to, nrows, ncols. simpl.
  rewrite Z2Nat.id by lia.
  rewrite !slice_bound_inside by lia.
  rewrite bool_decide_eq_true_2 by auto.
  rewrite (bool_decide_eq_true_2 (n = n)) by done.
  rewrite (bool_decide_eq_true_2 (Z.to_nat (b1 - b0) = Z.to_nat (b1 - b0))) by done.
  simpl. rewrite list_fmap_id.
  rewrite zip_with_replicate_l by lia. done.
Qed.

(** A row of zeros with the samples of the frames [b0 .. b1) of the
    window written into it is the row of the window, when the columns
    before [b0] and from [b1] on are the frames outside the recording. *)
Lemma window_row self c before s (len b0 b1 : Z) :
  0 ≤ b0 ≤ b1 → b1 ≤ len →
  b0 = 0 ∨ s - before + b0 ≤ 0 →
  0 ≤ s - before + b0 → s - before + b1 ≤ getNumFrames self →
  b1 = len ∨ getNumFrames self ≤ s - before + b1 →
  take (Z.to_nat b0) (replicate (Z.to_nat len) 0)
  ++ (samples self c <$> seqZ (s - before + b0) (b1 - b0))
  ++ drop (Z.to_nat b0 + Z.to_nat (b1 - b0)) (replicate (Z.to_nat len) 0)
  = column self before s c <$> seqZ 0 len.
Proof.
  intros Hb0 Hb1 Hleft Hlo Hhi Hright.
  replace len with (b0 + ((b1 - b0) + (len - b1))) at 3 by lia.
  rewrite !seqZ_app, !fmap_app by lia.
  f_equal; [|f_equal].
  - rewrite take_replicate, Nat.min_l by lia.
    rewrite (fmap_const_replicate _ 0); [by rewrite length_seqZ|].
    apply Forall_seqZ. intros j Hj. simpl.
    rewrite bool_decide_eq_false_2; [done|lia].
  - rewrite <-(fmap_add_seqZ (s - before) (0 + b0)), <-list_fmap_compose.
    apply Forall_fmap_ext_1, Forall_seqZ. intros j Hj. simpl.
    rewrite bool_decide_eq_true_2; [done|lia].
  - rewrite drop_replicate.
    rewrite (fmap_const_replicate _ 0).
    + rewrite length_seqZ. f_equal. lia.
    + apply Forall_seqZ. intros j Hj. simpl.
      rewrite bool_decide_eq_false_2; [done|lia].
Qed.

(** A start frame outside the recording: the chunk of zeros is appended
    as it is. *)
Lemma snippet_chunk_out_of_bounds self before after channel_ids s :
  0 ≤ before + after →
  s < 0 ∨ getNumFrames self ≤ s →
  snippet_chunk self before after channel_ids s
  = Ok (zeros (length channel_ids) (Z.to_nat (before + after))).
Proof.
  intros Hlen Hs. unfold snippet_chunk.
  rewrite np_zeros_Ok by done. simpl.
  destruct (Z.leb_spec 0 s), (Z.ltb_spec s (getNumFrames self)); simpl;
    first [done|lia].
Qed.

(** The traces of the clipped range written into the chunk of zeros
    give the window. *)
Lemma traces_into_zeros self before after channel_ids s (r0 r1 b0 b1 : Z) :
  Forall (λ c, c ∈ channels self) channel_ids →
  r0 = s - before + b0 → r1 = s - before + b1 →
  0 ≤ b0 ≤ b1 → b1 ≤ before + after →
  b0 = 0 ∨ r0 ≤ 0 → 0 ≤ r0 → r1 ≤ getNumFrames self →
  b1 = before + after ∨ getNumFrames self ≤ r1 →
  (traces ← getTraces self (Some r0) (Some r1) (Some channel_ids);
   set_columns (zeros (length channel_ids) (Z.to_nat (before + after))) b0 b1 traces)
  = Ok (window self before after s channel_ids).
Proof.
  intros Hchans -> -> Hb0 Hb1 Hleft Hlo Hhi Hright.
  unfold getTraces. cbv [default from_option id].
  rewrite bool_decide_eq_true_2 by (repeat split; first [lia|done]).
  cbn [mbind result_bind].
  replace (s - before + b1 - (s - before + b0)) with (b1 - b0) by lia.
  rewrite (set_columns_zeros _ (before + after) b0 b1)
    by (rewrite ?length_fmap; first [lia|done]).
  unfold window. do 2 f_equal.
  rewrite <-list_fmap_compose. apply list_fmap_ext. intros _ c _. simpl.
  by apply window_row.
Qed.

(** A start frame inside the recording: the window, clipped on each side
    on its own. *)
Lemma snippet_chunk_in_bounds self before after channel_ids s :
  0 ≤ before → 0 ≤ after →
  Forall (λ c, c ∈ channels self) channel_ids →
  0 ≤ s < getNumFrames self →
  snippet_chunk self before after channel_ids s
  = Ok (window self before after s channel_ids).
Proof.
  intros Hbefore Hafter Hchans Hs. unfold snippet_chunk.
  rewrite np_zeros_Ok by lia. simpl.
  destruct (Z.leb_spec 0 s); [|lia].
  destruct (Z.ltb_spec s (getNumFrames self)); [|lia]. simpl.
  destruct (Z.ltb_spec (s - before) 0) as [Hl|Hl]; cbn [fst snd];
    rewrite Z.geb_leb;
    destruct (Z.leb_spec (getNumFrames self) (s + after)) as [Hr|Hr];
    cbn [fst snd];
    apply traces_into_zeros; first [done|lia].
Qed.

Lemma window_lookup self before after s channel_ids (i : nat) (c j : Z) :
  channel_ids !! i = Some c → 0 ≤ j < before + after →
  rows (window self before after s channel_ids) !! i ≫= (.!! Z.to_nat j)
  = Some (column self before s c j).
Proof.
  intros Hi Hj. unfold window. cbn [rows].
  rewrite list_lookup_fmap, Hi. cbn [fmap option_fmap option_map mbind option_bind].
  rewrite list_lookup_fmap, lookup_seqZ_lt by lia.
  rewrite Z2Nat.id, Z.add_0_l by lia. done.
Qed.

Lemma window_inside self before after s channel_ids :
  Forall (λ c, c ∈ channels self) channel_ids →
  0 ≤ before + after →
  0 ≤ s - before → s + after ≤ getNumFrames self →
  getTraces self (Some (s - before)) (Some (s + after)) (Some channel_ids)
  = Ok (window self before after s channel_ids).
Proof.
  intros Hchans Hlen Hlo Hhi.
  unfold getTraces. cbv [default from_option id].
  rewrite bool_decide_eq_true_2 by (repeat split; first [lia|done]).
  unfold window. do 2 f_equal.
  - f_equal. lia.
  - apply list_fmap_ext. intros _ c _.
    replace (s + after - (s - before)) with (before + after) by lia.
    assert (seqZ (s - before) (before + after)
            = Z.add (s - before) <$> seqZ 0 (before + after)) as ->
      by (rewrite fmap_add_seqZ; f_equal; lia).
    rewrite <-list_fmap_compose.
    apply Forall_fmap_ext_1, Forall_seqZ. intros j Hj. simpl.
    rewrite bool_decide_eq_true_2; [done|lia].
Qed.

(** With non-negative lengths and present channels every iteration
    returns, so [getSnippets] returns one snippet per start frame. *)
Lemma getSnippets_total self before after start_frames channel_ids :
  0 ≤ before → 0 ≤ after →
  Forall (λ c, c ∈ channels self) channel_ids →
  ∃ snippets,
    getSnippets self before after start_frames (Some channel_ids) = Ok snippets
    ∧ length snippets = length start_frames.
Proof.
  intros Hbefore Hafter Hchans. unfold getSnippets.
  exists ((λ s, if bool_decide (0 ≤ s < getNumFrames self)
                then window self before after s channel_ids
                else zeros (length channel_ids) (Z.to_nat (before + after)))
            <$> start_frames).
  split; [|by rewrite length_fmap].
  apply for_each_Ok, Forall_forall. intros s _. case_bool_decide.
  - by apply snippet_chunk_in_bounds.
  - apply snippet_chunk_out_of_bounds; lia.
Qed.

(** C1.  For non-negative lengths, channel ids of the recording and a
    start frame [0 <= s < numFrames], [getSnippets] on [[s]] returns one
    snippet with [len(channel_ids)] rows and [before + after] columns;
    column [j] of the row of channel [c] is the sample of [c] at frame
    [s - before + j] when that frame is in [0, numFrames) and zero
    otherwise, whichever side overhangs.  When the window lies inside
    the recording the snippet is [getTraces(s - before, s + after,
    channel_ids)].  For every list of start frames the returned list has
    the length of that list. *)
Theorem getSnippets_in_bounds self before after channel_ids s :
  0 ≤ before → 0 ≤ after →
  Forall (λ c, c ∈ channels self) channel_ids →
  0 ≤ s < getNumFrames self →
  ∃ snippet,
    getSnippets self before after [s] (Some channel_ids) = Ok [snippet]
    ∧ snippet = window self before after s channel_ids
    ∧ shape snippet = (length channel_ids, Z.to_nat (before + after))
    ∧ length (rows snippet) = length channel_ids
    ∧ Forall (λ row, length row = Z.to_nat (before + after)) (rows snippet)
    ∧ (∀ (i : nat) (c j : Z),
         channel_ids !! i = Some c → 0 ≤ j < before + after →
         rows snippet !! i ≫= (.!! Z.to_nat j)
         = Some (if bool_decide (0 ≤ s - before + j < getNumFrames self)
                 then samples self c (s - before + j) else 0))
    ∧ (0 ≤ s - before → s + after ≤ getNumFrames self →
         getTraces self (Some (s - before)) (Some (s + after)) (Some channel_ids)
         = Ok snippet)
    ∧ (∀ start_frames, ∃ snippets,
         getSnippets self before after start_frames (Some channel_ids)
         = Ok snippets
         ∧ length snippets = length start_frames).
Proof.
  intros Hbefore Hafter Hchans Hs.
  exists (window self before after s channel_ids).
  split; [|split; [done|split; [done|split; [|split; [|split; [|split]]]]]].
  - unfold getSnippets. rewrite for_each_cons.
    by rewrite snippet_chunk_in_bounds.
  - simpl. by rewrite length_fmap.
  - simpl. apply Forall_fmap, Forall_forall. intros c _. simpl.
    by rewrite length_fmap, length_seqZ.
  - intros i c j. apply window_lookup.
  - intros. apply window_inside; first [done|lia].
  - intros start_frames. by apply getSnippets_total.
Qed.

Lemma resolve_channels_None_length self :
  Z.of_nat (length (resolve_channels self None)) = getNumChannels self.
Proof.
  unfold resolve_channels, range, getNumChannels.
  rewrite length_seqZ. lia.
Qed.

(** C2.  When the two lengths sum to a non-negative number, every start
    frame [s < 0] or [s >= numFrames] yields the array of zeros with one
    row per channel id ([numChannels] rows when [channel_ids] is not
    given) and [before + after] columns: a call whose start frames are
    all outside returns these arrays and raises nothing, and in any
    returned list the entry of such a start frame is that array.
    [getTraces] with a start bound outside [0, numFrames] fails. *)
Theorem getSnippets_out_of_bounds self before after (start_frames : list Z)
    (ids : option (list Z)) :
  0 ≤ before + after →
  let chunk := zeros (length (resolve_channels self ids))
                 (Z.to_nat (before + after)) in
  (Forall (λ s, s < 0 ∨ getNumFrames self ≤ s) start_frames →
     getSnippets self before after start_frames ids
     = Ok (replicate (length start_frames) chunk))
  ∧ (∀ snippets (i : nat) s,
       getSnippets self before after start_frames ids = Ok snippets →
       start_frames !! i = Some s →
       s < 0 ∨ getNumFrames self ≤ s →
       snippets !! i = Some chunk)
  ∧ Z.of_nat (length (resolve_channels self None)) = getNumChannels self
  ∧ (∀ s end_frame chans,
       s < 0 ∨ getNumFrames self < s →
       getTraces self (Some s) end_frame chans = Raise InvalidRange).
Proof.
  intros Hlen chunk. split; [|split; [|split]].
  - intros Hall. unfold getSnippets. fold (resolve_channels self ids).
    rewrite (for_each_Ok _ (λ _, chunk)).
    + by rewrite (fmap_const_replicate _ chunk) by (by apply Forall_true).
    + eapply Forall_impl; [exact Hall|]. intros s Hs.
      by apply snippet_chunk_out_of_bounds.
  - intros snippets i s Hsn Hi Hs. unfold getSnippets in Hsn.
    destruct (for_each_lookup _ _ _ _ _ Hsn Hi) as (y & Hy & Hchunk).
    fold (resolve_channels self ids) in Hchunk.
    rewrite snippet_chunk_out_of_bounds in Hchunk by done.
    by injection Hchunk as <-.
  - apply resolve_channels_None_length.
  - intros s end_frame chans Hs. unfold getTraces. cbv [default from_option id].
    rewrite bool_decide_eq_false_2; [done|]. lia.
Qed.

(** C3, as the code has it.  On a recording of 100 frames with lengths
    10 and 10, the start frame -5 is outside [0, 100) and its snippet is
    the array of zeros with 20 columns.  The start frame 5 gives the
    snippet clipped on the left: its first 5 columns are zero and its
    remaining 15 columns are [getTraces(0, 15)]. *)
Theorem snippet_at_minus_5 self channel_ids :
  getNumFrames self = 100 →
  Forall (λ c, c ∈ channels self) channel_ids →
  getSnippets self 10 10 [-5] (Some channel_ids)
  = Ok [zeros (length channel_ids) 20]
  ∧ ∃ snippet traces,
      getSnippets self 10 10 [5] (Some channel_ids) = Ok [snippet]
      ∧ getTraces self (Some 0) (Some 15) (Some channel_ids) = Ok traces
      ∧ padded_5 snippet traces.
Proof.
  intros Hframes Hchans. split.
  - unfold getSnippets. rewrite for_each_cons.
    rewrite snippet_chunk_out_of_bounds by lia. done.
  - exists (window self 10 10 5 channel_ids). eexists. split; [|split].
    + unfold getSnippets. rewrite for_each_cons.
      rewrite snippet_chunk_in_bounds by first [done|lia]. done.
    + unfold getTraces. cbv [default from_option id].
      rewrite bool_decide_eq_true_2 by (repeat split; first [lia|done]). done.
    + unfold padded_5, window. cbn [rows].
      apply Forall2_fmap, Forall_Forall2_diag, Forall_forall. intros c _.
      rewrite Hframes. done.
Qed.

End snippets.

(** C3 as stated, on the recording [ramp] of 100 frames: the snippet of the
    start frame -5 is all zero, whereas [getTraces(0, 5)] holds the samples
    1 to 5 of channel 0, so the last 5 columns of the snippet are not
    those traces. *)
Lemma snippet_at_minus_5_not_padded_traces :
  RecordingExtractor.getNumFrames Examples.ramp = 100
  ∧ ∃ snippet traces,
      RecordingExtractor.getSnippets Examples.ramp 10 10 [-5] None = Ok [snippet]
      ∧ RecordingExtractor.getTraces Examples.ramp (Some 0) (Some 5) None = Ok traces
      ∧ rows snippet = [replicate 20 0; replicate 20 0]
      ∧ rows traces = [[1; 2; 3; 4; 5]; [1001; 1002; 1003; 1004; 1005]]
      ∧ ¬ Reference.padded_15 snippet traces.
Proof.
  split; [done|]. do 2 eexists.
  split; [done|]. split; [done|]. split; [done|]. split; [done|].
  unfold Reference.padded_15. simpl.
  intros Hpad. apply Forall2_cons in Hpad as [[_ Hdrop] _]. discriminate Hdrop.
Qed.

(** C1 at the start frame 5 of [ramp], lengths 10 and 10, channel 1. *)
Lemma getSnippets_in_bounds_witness :
  ∃ snippet,
    RecordingExtractor.getSnippets Examples.ramp 10 10 [5] (Some [1]) = Ok [snippet]
    ∧ rows snippet
      = [[0; 0; 0; 0; 0; 1001; 1002; 1003; 1004; 1005; 1006; 1007; 1008; 1009;
          1010; 1011; 1012; 1013; 1014; 1015]].
Proof.
  destruct (getSnippets_in_bounds Examples.ramp 10 10 [1] 5)
    as (snippet & Hsnippet & -> & _).
  - lia.
  - lia.
  - repeat constructor.
  - simpl. lia.
  - exists (Reference.window Examples.ramp 10 10 5 [1]). split; [exact Hsnippet|].
    reflexivity.
Defined.

(** C2 at the start frames -1 and 100 of [ramp]. *)
Lemma getSnippets_out_of_bounds_witness :
  RecordingExtractor.getSnippets Examples.ramp 10 10 [-1; 100] None
  = Ok [Reference.zeros 2 20; Reference.zeros 2 20].
Proof.
  apply (getSnippets_out_of_bounds Examples.ramp 10 10 [-1; 100] None).
  - lia.
  - repeat constructor; simpl; lia.
Defined.

(** C3 at [ramp] and channel 0. *)
Lemma snippet_at_minus_5_witness :
  RecordingExtractor.getSnippets Examples.ramp 10 10 [-5] (Some [0])
  = Ok [Reference.zeros 1 20].
Proof.
  apply (snippet_at_minus_5 Examples.ramp [0]).
  - reflexivity.
  - repeat constructor.
Defined.


(** * Further properties *)

(** ** Unit properties: what a call changes *)

Section unit_property_updates.
Import SortingExtractor.
Implicit Types (self : SortingExtractor.t) (unit_id property_name data : pyval).

Lemma addUnitProperty_Ok_inv self unit_id property_name data self' :
  addUnitProperty self unit_id property_name data = (Ok (), self') →
  ∃ name props,
    property_name = PyStr name
    ∧ isinstance_int unit_id = true
    ∧ int_value unit_id ∈ getUnitIds self
    ∧ _unit_properties self !! int_value unit_id = Some props
    ∧ self' = set_unit_properties self
                (<[int_value unit_id := <[name := data]> props]>
                   (_unit_properties self)).
Proof.
  unfold addUnitProperty.
  destruct (isinstance_int unit_id); [|done].
  case_bool_decide; [|done].
  destruct property_name as [| | | |name|]; try done.
  destruct (_unit_properties self !! int_value unit_id) as [props|] eqn:Hprops;
    [|done].
  intros [= <-]. eauto 10.
Qed.

Lemma addUnitProperty_state self unit_id property_name data :
  (addUnitProperty self unit_id property_name data).2 = self
  ∨ ∃ self', addUnitProperty self unit_id property_name data = (Ok (), self').
Proof.
  unfold addUnitProperty.
  destruct (isinstance_int unit_id); [|by left].
  case_bool_decide; [|by left].
  destruct property_name; try (by left).
  destruct (_unit_properties self !! int_value unit_id); [right; eauto|by left].
Qed.

(** X1.  No call of [addUnitProperty] changes [getUnitIds()] or the set of
    units that have a property dictionary: the method never creates the
    dictionary of a unit. *)
Theorem addUnitProperty_keeps_units self unit_id property_name data :
  getUnitIds (addUnitProperty self unit_id property_name data).2 = getUnitIds self
  ∧ dom (_unit_properties (addUnitProperty self unit_id property_name data).2)
    = dom (_unit_properties self).
Proof.
  destruct (addUnitProperty_state self unit_id property_name data)
    as [->|[self' Hok]]; [done|].
  rewrite Hok. simpl.
  apply addUnitProperty_Ok_inv in Hok as (name & props & _ & _ & _ & Hprops & ->).
  split; [done|]. simpl.
  apply dom_insert_lookup_L. by rewrite Hprops.
Qed.

(** X3.  The last [addUnitProperty] for a unit and a name wins: a call
    followed by a second call for the same unit and name gives the result
    and the extractor of the second call alone, and after a call that
    returns, the datum is stored under that unit and name. *)
Theorem addUnitProperty_last_wins self unit_id property_name d1 d2 :
  addUnitProperty (addUnitProperty self unit_id property_name d1).2
    unit_id property_name d2
  = addUnitProperty self unit_id property_name d2
  ∧ ∀ self',
      addUnitProperty self unit_id property_name d2 = (Ok (), self') →
      ∃ name,
        property_name = PyStr name
        ∧ _unit_properties self' !! int_value unit_id ≫= (.!! name) = Some d2.
Proof.
  split.
  - destruct (addUnitProperty_state self unit_id property_name d1)
      as [->|[self1 Hok]]; [done|].
    rewrite Hok. simpl.
    apply addUnitProperty_Ok_inv in Hok
      as (name & props & -> & Hint & Hin & Hprops & ->).
    unfold addUnitProperty. simpl. rewrite Hint.
    rewrite bool_decide_eq_true_2 by done.
    rewrite lookup_insert_eq, Hprops.
    unfold set_unit_properties. simpl.
    by rewrite !insert_insert_eq.
  - intros self' (name & props & -> & _ & _ & Hprops & ->)%addUnitProperty_Ok_inv.
    exists name. split; [done|]. simpl.
    rewrite lookup_insert_eq. simpl. apply lookup_insert_eq.
Qed.

(** X4.  On an extractor left by [__init__], no sequence of
    [addUnitProperty] calls ever returns or stores anything: every call
    raises and the extractor stays as [__init__] left it. *)
Theorem addUnitProperty_calls_from_init (unit_ids : list Z)
    (calls : list (pyval * pyval * pyval)) :
  (Calls.addUnitProperty_calls (init unit_ids) calls).2 = init unit_ids
  ∧ Forall (λ r, r ≠ Ok ()) (Calls.addUnitProperty_calls (init unit_ids) calls).1.
Proof.
  induction calls as [|[[unit_id property_name] data] calls [IHs IHr]]; simpl.
  - split; [done|constructor].
  - destruct (addUnitProperty_no_inner_dict (init unit_ids) unit_id
                property_name data) as [Hr Hs]; [done|].
    rewrite Hs. split; [done|]. by constructor.
Qed.

End unit_property_updates.


(** ** Epochs: how the operations compose *)

Section epoch_updates.
Import RecordingExtractor Reference EpochView.
Implicit Types (self : RecordingExtractor.t) (name : string) (epoch_name : pyval).

Local Abbreviation not_added := (ValueError "This epoch has not been added").
Local Abbreviation frame_name_pairs d :=
  ((λ kv : string * epoch, (start_frame kv.2, kv.1)) <$> d).

Lemma set_epochs_id self : set_epochs self (_epochs self) = self.
Proof. by destruct self. Qed.

Lemma dict_set_set {V} k (v1 v2 : V) (d : list (string * V)) :
  dict_set k v2 (dict_set k v1 d) = dict_set k v2 d.
Proof.
  induction d as [|[k' v'] d IH]; simpl.
  - by rewrite decide_True.
  - case_decide; simpl.
    + by rewrite decide_True.
    + rewrite decide_False by done. by rewrite IH.
Qed.

Lemma dict_del_absent {V} k (d : list (string * V)) :
  k ∉ dict_keys d → dict_del k d = d.
Proof.
  unfold dict_del, dict_keys. induction d as [|[k' v'] d IH]; [done|].
  intros [Hne Hk]%not_elem_of_cons.
  rewrite filter_cons_True by (intros Heq; apply Hne; symmetry; exact Heq). by rewrite IH.
Qed.

Lemma dict_del_set_fresh {V} k (v : V) (d : list (string * V)) :
  k ∉ dict_keys d → dict_del k (dict_set k v d) = d.
Proof.
  unfold dict_del, dict_keys. induction d as [|[k' v'] d IH]; simpl.
  - intros _. rewrite filter_cons_False; [done|]. simpl. by intros Hne.
  - intros [Hne Hk]%not_elem_of_cons. rewrite decide_False by done.
    rewrite filter_cons_True by (intros Heq; apply Hne; symmetry; exact Heq). by rewrite IH.
Qed.

Lemma dict_set_key {V} k (v : V) (d : list (string * V)) :
  k ∈ dict_keys (dict_set k v d).
Proof.
  apply list_elem_of_fmap. exists (k, v). split; [done|]. apply dict_set_elem_of.
Qed.

Lemma dict_get_Some_elem_of {V} k (v : V) (d : list (string * V)) :
  dict_get k d = Some v → (k, v) ∈ d.
Proof.
  induction d as [|[k' v'] d IH]; simpl; [done|].
  case_decide; subst.
  - intros [= ->]. apply list_elem_of_here.
  - intros ?. by apply list_elem_of_further, IH.
Qed.

Lemma dict_get_Permutation {V} k (d1 d2 : list (string * V)) :
  NoDup (dict_keys d1) → d1 ≡ₚ d2 → dict_get k d1 = dict_get k d2.
Proof.
  intros Hnd1 Hperm.
  assert (NoDup (dict_keys d2)) as Hnd2 by (unfold dict_keys; by rewrite <-Hperm).
  destruct (dict_get k d1) as [v|] eqn:Hget.
  - symmetry. apply dict_get_elem_of; [done|].
    rewrite <-Hperm. by apply dict_get_Some_elem_of.
  - symmetry. apply dict_get_None. apply dict_get_None in Hget.
    unfold dict_keys in *. by rewrite <-Hperm.
Qed.

Lemma dict_set_comm {V} k1 k2 (v1 v2 : V) (d : list (string * V)) :
  k1 ≠ k2 →
  dict_set k2 v2 (dict_set k1 v1 d) ≡ₚ dict_set k1 v1 (dict_set k2 v2 d).
Proof.
  intros Hne. induction d as [|[k v] d IH]; simpl.
  - rewrite !decide_False by done. apply Permutation_swap.
  - destruct (decide (k1 = k)) as [->|Hk1]; simpl.
    + rewrite !decide_False by done. simpl. by rewrite decide_True.
    + destruct (decide (k2 = k)) as [->|Hk2]; simpl.
      * by rewrite decide_False.
      * rewrite decide_False by done. by rewrite IH.
Qed.

Global Instance key_le_antisymm : AntiSymm (=) key_le.
Proof.
  intros [s1 n1] [s2 n2] [Hlt|[Heq Hle]] [Hlt'|[Heq' Hle']];
    simpl in *; try lia.
  subst. f_equal. by apply (anti_symm String.le).
Qed.

Lemma StronglySorted_filter {A} (R : relation A) (P : A → Prop)
    `{∀ x, Decision (P x)} (l : list A) :
  StronglySorted R l → StronglySorted R (filter P l).
Proof.
  induction 1 as [|x l Hl IH Hx]; [constructor|].
  rewrite filter_cons. case_decide; [|done].
  constructor; [done|].
  apply Forall_forall. intros y [_ Hy]%list_elem_of_filter.
  rewrite Forall_forall in Hx. by apply Hx.
Qed.

Lemma list_fmap_filter {A B} (f : A → B) (P : B → Prop)
    `{∀ y, Decision (P y)} (l : list A) :
  f <$> filter (λ x, P (f x)) l = filter P (f <$> l).
Proof.
  induction l as [|x l IH]; [done|].
  rewrite fmap_cons, !filter_cons.
  case_decide; [by rewrite fmap_cons, IH|done].
Qed.

Lemma sorted_pairs_Permutation (d1 d2 : list (Z * string)) :
  d1 ≡ₚ d2 → sorted tuple_ltb d1 = sorted tuple_ltb d2.
Proof.
  intros Hperm. apply (StronglySorted_unique key_le).
  - apply sorted_StronglySorted;
      [apply key_le_of_tuple_ltb|apply key_le_of_not_tuple_ltb|apply _].
  - apply sorted_StronglySorted;
      [apply key_le_of_tuple_ltb|apply key_le_of_not_tuple_ltb|apply _].
  - by rewrite !sorted_Permutation.
Qed.

Lemma sorted_pairs_filter (P : Z * string → Prop) `{∀ x, Decision (P x)}
    (d : list (Z * string)) :
  sorted tuple_ltb (filter P d) = filter P (sorted tuple_ltb d).
Proof.
  apply (StronglySorted_unique key_le).
  - apply sorted_StronglySorted;
      [apply key_le_of_tuple_ltb|apply key_le_of_not_tuple_ltb|apply _].
  - apply StronglySorted_filter, sorted_StronglySorted;
      [apply key_le_of_tuple_ltb|apply key_le_of_not_tuple_ltb|apply _].
  - by rewrite !sorted_Permutation.
Qed.

(** The names returned are the keys of [_epochs], in some order. *)
Lemma getEpochNames_keys self :
  NoDup (dict_keys (_epochs self)) →
  ∃ names, getEpochNames self = Ok names ∧ names ≡ₚ dict_keys (_epochs self).
Proof.
  intros Hnd. eexists. split; [by apply getEpochNames_sorted_pairs|].
  rewrite sorted_Permutation. unfold dict_keys.
  rewrite <-list_fmap_compose. done.
Qed.

(** Extractors that store the same epochs, inserted in any order, answer
    [getEpochNames] alike. *)
Lemma getEpochNames_Permutation self1 self2 :
  NoDup (dict_keys (_epochs self1)) →
  _epochs self1 ≡ₚ _epochs self2 →
  getEpochNames self1 = getEpochNames self2.
Proof.
  intros Hnd1 Hperm.
  assert (NoDup (dict_keys (_epochs self2))) as Hnd2
    by (unfold dict_keys; by rewrite <-Hperm).
  rewrite !getEpochNames_sorted_pairs by done.
  do 2 f_equal. apply sorted_pairs_Permutation. by rewrite Hperm.
Qed.

(** They answer [getEpochInfo] alike too. *)
Lemma getEpochInfo_Permutation self1 self2 epoch_name :
  NoDup (dict_keys (_epochs self1)) →
  _epochs self1 ≡ₚ _epochs self2 →
  getEpochInfo self1 epoch_name = getEpochInfo self2 epoch_name.
Proof.
  intros Hnd1 Hperm. destruct epoch_name as [| | | |name|]; try done.
  rewrite !getEpochInfo_dict_get.
  by rewrite (dict_get_Permutation name _ _ Hnd1 Hperm).
Qed.

(** X5.  The last [addEpoch] for a name wins: two calls with the same name
    give the result and the extractor of the second call alone, and for a
    string name [getEpochInfo] then returns the frames of that call. *)
Theorem addEpoch_last_wins self epoch_name (s1 e1 s2 e2 : Z) :
  addEpoch (addEpoch self epoch_name s1 e1).2 epoch_name s2 e2
  = addEpoch self epoch_name s2 e2
  ∧ ∀ name, epoch_name = PyStr name →
      getEpochInfo (addEpoch self epoch_name s2 e2).2 epoch_name
      = Ok (mk_epoch s2 e2).
Proof.
  split.
  - destruct epoch_name as [| | | |name|]; try done.
    simpl. unfold set_epochs. simpl. by rewrite dict_set_set.
  - intros name ->. rewrite getEpochInfo_dict_get. simpl.
    by rewrite dict_get_set_eq.
Qed.

(** X6.  Adding an epoch under a name that is not stored and removing it
    again gives back the extractor as it was. *)
Theorem addEpoch_then_removeEpoch self name (s e : Z) :
  name ∉ dict_keys (_epochs self) →
  removeEpoch (addEpoch self (PyStr name) s e).2 (PyStr name) = (Ok (), self).
Proof.
  intros Hfresh. simpl.
  rewrite bool_decide_eq_true_2 by apply dict_set_key.
  unfold set_epochs. simpl. rewrite dict_del_set_fresh by done.
  by destruct self.
Qed.

(** X7.  [getEpochNames] returns every stored name once: the list has no
    repetition, has as many entries as there are epochs, and holds exactly
    the names for which [getEpochInfo] returns. *)
Theorem getEpochNames_getEpochInfo self :
  NoDup (dict_keys (_epochs self)) →
  ∃ names,
    getEpochNames self = Ok names
    ∧ NoDup names
    ∧ length names = length (_epochs self)
    ∧ ∀ name, name ∈ names ↔ ∃ epoch_info, getEpochInfo self (PyStr name) = Ok epoch_info.
Proof.
  intros Hnd. destruct (getEpochNames_keys self Hnd) as (names & Hnames & Hperm).
  exists names. split; [done|]. split; [by rewrite Hperm|].
  split; [by rewrite Hperm; unfold dict_keys; rewrite length_fmap|].
  intros name. rewrite Hperm, <-dict_get_is_Some, getEpochInfo_dict_get.
  destruct (dict_get name (_epochs self)) as [epoch_info|].
  - split; eauto.
  - split; [by intros []|by intros []].
Qed.

(** X8.  [getEpochNames] and [getEpochInfo] do not depend on the order in
    which the epochs were added: two extractors whose stored epochs are
    the same up to order return the same names, in the same order, and the
    same info for every name. *)
Theorem getEpochNames_insertion_order self1 self2 :
  NoDup (dict_keys (_epochs self1)) →
  _epochs self1 ≡ₚ _epochs self2 →
  getEpochNames self1 = getEpochNames self2
  ∧ ∀ epoch_name, getEpochInfo self1 epoch_name = getEpochInfo self2 epoch_name.
Proof.
  intros Hnd Hperm. split.
  - by apply getEpochNames_Permutation.
  - intros epoch_name. by apply getEpochInfo_Permutation.
Qed.

(** X9.  [removeEpoch(name)] takes [name] out of the list returned by
    [getEpochNames] and keeps the other names in their order. *)
Theorem getEpochNames_after_removeEpoch self name :
  NoDup (dict_keys (_epochs self)) →
  ∃ names,
    getEpochNames self = Ok names
    ∧ getEpochNames (removeEpoch self (PyStr name)).2
      = Ok (filter (λ n, n ≠ name) names).
Proof.
  intros Hnd. eexists. split; [by apply getEpochNames_sorted_pairs|].
  assert (_epochs (removeEpoch self (PyStr name)).2 = dict_del name (_epochs self))
    as Hdel.
  { simpl. case_bool_decide as Hin; [done|]. simpl. by rewrite dict_del_absent. }
  rewrite getEpochNames_sorted_pairs
    by (rewrite Hdel; by apply dict_del_keys_NoDup).
  rewrite Hdel. f_equal.
  assert (frame_name_pairs (dict_del name (_epochs self))
          = filter (λ p, p.2 ≠ name) (frame_name_pairs (_epochs self))) as ->
    by exact (list_fmap_filter (λ kv : string * epoch, (start_frame kv.2, kv.1))
                (λ p : Z * string, p.2 ≠ name) (_epochs self)).
  rewrite sorted_pairs_filter.
  exact (list_fmap_filter snd (λ n : string, n ≠ name) _).
Qed.

(** X10.  Two [addEpoch] calls with different names commute for every
    reader: in either order [getEpochNames] returns the same list and
    [getEpochInfo] the same info for every name. *)
Theorem addEpoch_commute self name1 name2 (s1 e1 s2 e2 : Z) :
  NoDup (dict_keys (_epochs self)) →
  name1 ≠ name2 →
  let self12 := (addEpoch (addEpoch self (PyStr name1) s1 e1).2 (PyStr name2) s2 e2).2 in
  let self21 := (addEpoch (addEpoch self (PyStr name2) s2 e2).2 (PyStr name1) s1 e1).2 in
  getEpochNames self12 = getEpochNames self21
  ∧ ∀ epoch_name, getEpochInfo self12 epoch_name = getEpochInfo self21 epoch_name.
Proof.
  intros Hnd Hne self12 self21.
  assert (NoDup (dict_keys (_epochs self12))) as Hnd12
    by (simpl; by do 2 apply dict_set_keys_NoDup).
  assert (_epochs self12 ≡ₚ _epochs self21) as Hperm
    by (simpl; by apply dict_set_comm).
  split.
  - by apply getEpochNames_Permutation.
  - intros epoch_name. by apply getEpochInfo_Permutation.
Qed.

(** X11.  [getEpoch(name)] right after [addEpoch(name, s, e)] builds the
    view with the updated extractor as parent and the frames [s] and [e];
    for a name that is not stored, and for a name that is not a string, it
    raises the [ValueError] of [getEpochInfo] and builds no view. *)
Theorem getEpoch_after_addEpoch {V} (SubRecordingExtractor : t → Z → Z → result V)
    self name (s e : Z) :
  getEpoch SubRecordingExtractor (addEpoch self (PyStr name) s e).2 (PyStr name)
  = SubRecordingExtractor (addEpoch self (PyStr name) s e).2 s e
  ∧ (name ∉ dict_keys (_epochs self) →
       getEpoch SubRecordingExtractor self (PyStr name) = Raise not_added)
  ∧ (∀ epoch_name, isinstance_str epoch_name = false →
       getEpoch SubRecordingExtractor self epoch_name
       = Raise (ValueError "epoch_name must be a string")).
Proof.
  split; [|split].
  - unfold getEpoch. rewrite getEpochInfo_dict_get. simpl.
    by rewrite dict_get_set_eq.
  - intros Hfresh. unfold getEpoch. rewrite getEpochInfo_dict_get.
    apply dict_get_None in Hfresh. by rewrite Hfresh.
  - by intros [| | | |name'|].
Qed.

End epoch_updates.

(** X6 at the epoch "a" on the epoch-free recording. *)
Lemma addEpoch_then_removeEpoch_witness :
  RecordingExtractor.removeEpoch
    (RecordingExtractor.addEpoch Examples.ramp (PyStr "a") 0 10).2 (PyStr "a")
  = (Ok (), Examples.ramp).
Proof.
  apply (addEpoch_then_removeEpoch Examples.ramp "a" 0 10).
  vm_compute. apply not_elem_of_nil.
Defined.

(** X7 at the epochs b = [10, 20) and a = [0, 10). *)
Lemma getEpochNames_getEpochInfo_witness :
  ∃ names,
    RecordingExtractor.getEpochNames (Examples.with_epochs [("b", 10, 20); ("a", 0, 10)])
    = Ok names
    ∧ NoDup names
    ∧ length names = 2%nat
    ∧ ∀ name, name ∈ names ↔
        ∃ epoch_info,
          RecordingExtractor.getEpochInfo
            (Examples.with_epochs [("b", 10, 20); ("a", 0, 10)]) (PyStr name)
          = Ok epoch_info.
Proof.
  apply (getEpochNames_getEpochInfo (Examples.with_epochs [("b", 10, 20); ("a", 0, 10)])).
  apply (bool_decide_unpack _). vm_compute. exact I.
Defined.

(** X8 at the epochs a and b added in the two orders. *)
Lemma getEpochNames_insertion_order_witness :
  RecordingExtractor.getEpochNames (Examples.with_epochs [("a", 0, 10); ("b", 10, 20)])
  = RecordingExtractor.getEpochNames (Examples.with_epochs [("b", 10, 20); ("a", 0, 10)])
  ∧ ∀ epoch_name,
      RecordingExtractor.getEpochInfo
        (Examples.with_epochs [("a", 0, 10); ("b", 10, 20)]) epoch_name
      = RecordingExtractor.getEpochInfo
          (Examples.with_epochs [("b", 10, 20); ("a", 0, 10)]) epoch_name.
Proof.
  apply (getEpochNames_insertion_order
           (Examples.with_epochs [("a", 0, 10); ("b", 10, 20)])
           (Examples.with_epochs [("b", 10, 20); ("a", 0, 10)])).
  - apply (bool_decide_unpack _). vm_compute. exact I.
  - simpl. apply Permutation_swap.
Defined.

(** X9 at the epochs b and a, removing "b". *)
Lemma getEpochNames_after_removeEpoch_witness :
  ∃ names,
    RecordingExtractor.getEpochNames (Examples.with_epochs [("b", 10, 20); ("a", 0, 10)])
    = Ok names
    ∧ RecordingExtractor.getEpochNames
        (RecordingExtractor.removeEpoch
           (Examples.with_epochs [("b", 10, 20); ("a", 0, 10)]) (PyStr "b")).2
      = Ok (filter (λ n, n ≠ "b") names).
Proof.
  apply (getEpochNames_after_removeEpoch
           (Examples.with_epochs [("b", 10, 20); ("a", 0, 10)]) "b").
  apply (bool_decide_unpack _). vm_compute. exact I.
Defined.

(** X10 at the names "a" and "b" on the epoch-free recording. *)
Lemma addEpoch_commute_witness :
  RecordingExtractor.getEpochNames (Examples.with_epochs [("a", 0, 10); ("b", 10, 20)])
  = RecordingExtractor.getEpochNames (Examples.with_epochs [("b", 10, 20); ("a", 0, 10)]).
Proof.
  apply (addEpoch_commute Examples.ramp "a" "b" 0 10 10 20).
  - constructor.
  - discriminate.
Defined.

(** X11 with the constructor that records its arguments. *)
Lemma getEpoch_after_addEpoch_witness :
  EpochView.getEpoch Calls.record_view
    (RecordingExtractor.addEpoch Examples.ramp (PyStr "a") 0 10).2 (PyStr "a")
  = Ok ((RecordingExtractor.addEpoch Examples.ramp (PyStr "a") 0 10).2, 0, 10).
Proof.
  apply (getEpoch_after_addEpoch Calls.record_view Examples.ramp "a" 0 10).
Defined.

(** ** Snippets: entries, edge cases and neighbouring start frames *)

Section snippet_entries.
Import RecordingExtractor Reference.
Implicit Types (self : RecordingExtractor.t) (before after s : Z).
Implicit Types (channel_ids : list Z).


(** X13.  When the two lengths sum to a negative number, [getSnippets]
    raises the [ValueError] of [np.zeros] for every non-empty list of
    start frames, in or out of the recording, and returns the empty list
    for the empty list. *)
Theorem getSnippets_negative_length self before after (start_frames : list Z)
    (ids : option (list Z)) :
  before + after < 0 →
  getSnippets self before after start_frames ids
  = match start_frames with
    | [] => Ok []
    | _ :: _ => Raise (ValueError "negative dimensions are not allowed")
    end.
Proof.
  intros Hlen. destruct start_frames as [|s start_frames]; [done|].
  unfold getSnippets. rewrite for_each_cons.
  unfold snippet_chunk, np_zeros.
  destruct (Z.ltb_spec (before + after) 0); [done|lia].
Qed.

(** X14.  In the snippet of a start frame inside the recording, taken with
    a non-negative length before and a positive length after, the column
    of index [before] holds the sample of the start frame itself. *)
Theorem getSnippets_start_frame_column self before after channel_ids s
    (i : nat) (c : Z) :
  0 ≤ before → 0 < after →
  Forall (λ c, c ∈ channels self) channel_ids →
  0 ≤ s < getNumFrames self →
  channel_ids !! i = Some c →
  ∃ snippet,
    getSnippets self before after [s] (Some channel_ids) = Ok [snippet]
    ∧ rows snippet !! i ≫= (.!! Z.to_nat before) = Some (samples self c s).
Proof.
  intros Hbefore Hafter Hchans Hs Hi.
  exists (window self before after s channel_ids). split.
  - unfold getSnippets. rewrite for_each_cons.
    by rewrite snippet_chunk_in_bounds by first [done|lia].
  - rewrite (window_lookup self before after s channel_ids i c before)
      by first [done|lia].
    cbv beta zeta. replace (s - before + before) with s by lia.
    by rewrite bool_decide_eq_true_2.
Qed.

(** X15.  The snippets of two neighbouring start frames inside the
    recording are shifted by one column: column [j] of the snippet of
    [s + 1] is column [j + 1] of the snippet of [s]. *)
Theorem getSnippets_neighbours self before after channel_ids s :
  0 ≤ before → 0 ≤ after →
  Forall (λ c, c ∈ channels self) channel_ids →
  0 ≤ s → s + 1 < getNumFrames self →
  ∃ snippet snippet',
    getSnippets self before after [s; s + 1] (Some channel_ids)
    = Ok [snippet; snippet']
    ∧ ∀ (i : nat) (j : Z),
        (i < length channel_ids)%nat → 0 ≤ j → j + 1 < before + after →
        rows snippet' !! i ≫= (.!! Z.to_nat j)
        = rows snippet !! i ≫= (.!! Z.to_nat (j + 1)).
Proof.
  intros Hbefore Hafter Hchans Hs Hs'.
  exists (window self before after s channel_ids),
         (window self before after (s + 1) channel_ids).
  split.
  - unfold getSnippets. rewrite !for_each_cons.
    by rewrite !snippet_chunk_in_bounds by first [done|lia].
  - intros i j Hi Hj Hj'.
    destruct (lookup_lt_is_Some_2 channel_ids i Hi) as [c Hc].
    rewrite (window_lookup self before after (s + 1) channel_ids i c j)
      by first [done|lia].
    rewrite (window_lookup self before after s channel_ids i c (j + 1))
      by first [done|lia].
    cbv beta zeta.
    by replace (s + 1 - before + j) with (s - before + (j + 1)) by lia.
Qed.

End snippet_entries.


(** X13 at the lengths 2 and -3. *)
Lemma getSnippets_negative_length_witness :
  RecordingExtractor.getSnippets Examples.ramp 2 (-3) [5] None
  = Raise (ValueError "negative dimensions are not allowed").
Proof.
  apply (getSnippets_negative_length Examples.ramp 2 (-3) [5] None). lia.
Defined.

(** X14 at the start frame 5 of [ramp] on channel 1. *)
Lemma getSnippets_start_frame_column_witness :
  ∃ snippet,
    RecordingExtractor.getSnippets Examples.ramp 10 10 [5] (Some [0; 1]) = Ok [snippet]
    ∧ rows snippet !! 1%nat ≫= (.!! Z.to_nat 10) = Some 1006.
Proof.
  apply (getSnippets_start_frame_column Examples.ramp 10 10 [0; 1] 5 1 1).
  - lia.
  - lia.
  - repeat constructor.
  - simpl. lia.
  - reflexivity.
Defined.

(** X15 at the start frames 98 and 99 of [ramp]. *)
Lemma getSnippets_neighbours_witness :
  ∃ snippet snippet',
    RecordingExtractor.getSnippets Examples.ramp 10 10 [98; 98 + 1] (Some [0; 1])
    = Ok [snippet; snippet']
    ∧ ∀ (i : nat) (j : Z),
        (i < length [0; 1])%nat → 0 ≤ j → j + 1 < 10 + 10 →
        rows snippet' !! i ≫= (.!! Z.to_nat j)
        = rows snippet !! i ≫= (.!! Z.to_nat (j + 1)).
Proof.
  apply (getSnippets_neighbours Examples.ramp 10 10 [0; 1] 98).
  - lia.
  - lia.
  - repeat constructor.
  - lia.
  - simpl. lia.
Defined.
